(** * ml_service/main.py — the embedding endpoint, embedded in Rocq

    The service is one FastAPI application with two routes
    ([POST /embed], [GET /health]) and a [__main__] block that reads the
    listening port from the environment.  The sentence-embedding model is
    a third-party object: here it is an oracle over an opaque world state,
    so that nothing about determinism or dimensionality is assumed by the
    definitions themselves. *)

From Stdlib Require Import ZArith Lia List Ascii String.
From Stdlib Require Import Floats.SpecFloat.
From stdpp Require Import base option strings gmap.
Import ListNotations.

#[local] Open Scope string_scope.
#[local] Open Scope list_scope.
#[local] Open Scope Z_scope.

(** ** Python values *)

(** A Python [float] is an IEEE 754 number; [spec_float] is the
    Standard Library's model of one. *)
Definition float : Type := spec_float.

(** The literal [0.0]. *)
Definition zero_float : float := S754_zero false.

(** The values that travel through request and response bodies. *)
#[warnings="-register-all"]
Inductive py_value : Type :=
| PyNone
| PyBool (b : bool)
| PyInt (n : Z)
| PyFloat (x : float)
| PyStr (s : string)
| PyList (items : list py_value)
| PyDict (entries : list (string * py_value)).

(** [d[k]] on a dict literal kept as its entry list. *)
Fixpoint dict_get (entries : list (string * py_value)) (key : string)
  : option py_value :=
  match entries with
  | [] => None
  | (k, v) :: rest => if String.eqb k key then Some v else dict_get rest key
  end.

(** [l * n] on lists: [n] copies of [l] one after the other; an [n]
    below one gives the empty list. *)
Definition list_mul {A} (l : list A) (n : Z) : list A :=
  concat (repeat l (Z.to_nat n)).

(** Truth value of a [str]: only the empty string is falsy, so
    [not s] holds exactly for [""]. *)
Definition py_not_str (s : string) : bool :=
  match s with
  | EmptyString => true
  | String _ _ => false
  end.

(** ** Exceptions *)

(** An exception object raised inside library code.  Two observations are
    made on it: whether [except Exception] catches it (it derives from
    [Exception] and not only from [BaseException]) and what [str(e)]
    gives. *)
Record py_exception : Type := mk_exception {
  isinstance_Exception : bool;
  str : string
}.

(** What leaves a route handler when it does not return. *)
Inductive raised : Type :=
| HTTPException (status_code : Z) (detail : string)
| Propagated (e : py_exception).

(** ** The model object *)

(** A one-dimensional numpy array, as [model.encode] returns for a single
    sentence. *)
Record ndarray : Type := mk_ndarray { nd_data : list float }.

(** [embedding.tolist()]: the elements, in order, as Python floats. *)
Definition tolist (a : ndarray) : py_value :=
  PyList (map PyFloat (nd_data a)).

(** Outcome of one call of [model.encode]. *)
Inductive encode_outcome : Type :=
| Returned (embedding : ndarray)
| Raised (e : py_exception).

(** ** The effect monad of a handler

    A handler runs against the process state: the world the model lives in
    and, for the proofs, the list of texts handed to [model.encode] so far. *)
Record Server (World : Type) : Type := mk_server {
  world : World;
  encode_calls : list string
}.
Arguments mk_server {World} _ _.
Arguments world {World} _.
Arguments encode_calls {World} _.

(** The state once the model has been called on [t] and has left the
    world [w']. *)
Definition after_call {World} (st : Server World) (t : string) (w' : World)
  : Server World :=
  mk_server w' (encode_calls st ++ [t]).

Definition Py (World E A : Type) : Type :=
  Server World -> (A + E) * Server World.

Definition Return {World E A} (a : A) : Py World E A :=
  fun st => (inl a, st).

Definition raise {World E A} (e : E) : Py World E A :=
  fun st => (inr e, st).

Definition py_bind {World E A B}
  (m : Py World E A) (k : A -> Py World E B) : Py World E B :=
  fun st =>
    match m st with
    | (inl a, st') => k a st'
    | (inr e, st') => (inr e, st')
    end.

Declare Scope py_scope.
Delimit Scope py_scope with py.
Notation "x <- m ;; k" := (py_bind m (fun x => k))
  (at level 100, m at next level, right associativity) : py_scope.

(** [try: body  except Exception as e: handler e].  An exception that
    does not derive from [Exception] passes through. *)
Definition try_except_Exception {World A}
  (body : Py World py_exception A)
  (handler : py_exception -> Py World raised A) : Py World raised A :=
  fun st =>
    match body st with
    | (inl a, st') => (inl a, st')
    | (inr e, st') =>
        if isinstance_Exception e then handler e st'
        else (inr (Propagated e), st')
    end.

(** ** The application *)

Definition MODEL_NAME : string := "paraphrase-multilingual-MiniLM-L12-v2".

Record FastAPI : Type := mk_FastAPI { title : string }.

Definition app : FastAPI := {| title := "MPIT 2026 ML Service" |}.

(** Module-level statements executed at import, in order. *)
Inductive boot_step : Type :=
| print (line : string)
| SentenceTransformer (name : string).

Definition module_body : list boot_step :=
  [ print ("Loading model " ++ MODEL_NAME ++ "...")%string;
    SentenceTransformer MODEL_NAME;
    print "Model loaded!" ].

Record EmbeddingRequest : Type := mk_EmbeddingRequest { text : string }.

Section Handlers.
Context {World : Type}.

(** The loaded model: one call of [encode] on a text, in a world,
    gives an outcome and the world after the call. *)
Variable encode : string -> World -> encode_outcome * World.

(** [model.encode(t)] as an effect; every call is recorded. *)
Definition model_encode (t : string) : Py World py_exception ndarray :=
  fun st =>
    let (out, w') := encode t (world st) in
    let st' := after_call st t w' in
    match out with
    | Returned a => (inl a, st')
    | Raised e => (inr e, st')
    end.

(** [POST /embed] *)
Definition create_embedding (req : EmbeddingRequest)
  : Py World raised py_value :=
  if py_not_str (text req) then
    Return (PyDict [("vector", PyList (list_mul [PyFloat zero_float] 384))])
  else
    try_except_Exception
      (embedding <- model_encode (text req) ;;
       Return (PyDict [("vector", tolist embedding)]))%py
      (fun e => raise (HTTPException 500 (str e))).

(** [GET /health] *)
Definition health : Py World raised py_value :=
  Return (PyDict [("status", PyStr "ok"); ("model", PyStr MODEL_NAME)]).

End Handlers.

(** ** The framework around the handlers *)

(** What goes back on the wire. *)
Inductive http_response : Type :=
| JSONResponse (status : Z) (content : py_value)
| RequestValidationError.

Definition status_of (r : http_response) : Z :=
  match r with
  | JSONResponse c _ => c
  | RequestValidationError => 422
  end.

(** Modelled from the spec: FastAPI's treatment of a handler's outcome,
    which lives in the framework and not in this repository.  A returned
    dict is the success body; an [HTTPException] becomes a response with
    its status code and a [detail] field; anything else leaves the
    request as an exception. *)
Definition respond (out : py_value + raised) : http_response + py_exception :=
  match out with
  | inl v => inl (JSONResponse 200 v)
  | inr (HTTPException c d) => inl (JSONResponse c (PyDict [("detail", PyStr d)]))
  | inr (Propagated e) => inr e
  end.

(** Modelled from the spec: validation of a parsed request body against
    [class EmbeddingRequest(BaseModel): text: str], done by pydantic
    before the handler is entered.  The body must be an object whose
    [text] entry is a string. *)
Definition validate_EmbeddingRequest (body : py_value)
  : option EmbeddingRequest :=
  match body with
  | PyDict entries =>
      match dict_get entries "text" with
      | Some (PyStr s) => Some {| text := s |}
      | _ => None
      end
  | _ => None
  end.

(** Modelled from the spec: a [POST] route with a body parameter.  The
    body is validated first; a body that fails is answered with the
    framework's client error (status 422) and the endpoint function is
    not called. *)
Definition post_route {World Req}
  (validate : py_value -> option Req)
  (endpoint : Req -> Py World raised py_value)
  (body : py_value) : Py World py_exception http_response :=
  fun st =>
    match validate body with
    | None => (inl RequestValidationError, st)
    | Some req => let (out, st') := endpoint req st in (respond out, st')
    end.

(** [@app.post("/embed")] applied to [create_embedding]. *)
Definition post_embed {World}
  (encode : string -> World -> encode_outcome * World)
  : py_value -> Py World py_exception http_response :=
  post_route validate_EmbeddingRequest (create_embedding encode).

(** The claim's wording of a well-formed body: an object with a [text]
    field holding a string. *)
Definition has_text_string (body : py_value) : Prop :=
  exists entries s, body = PyDict entries /\ dict_get entries "text" = Some (PyStr s).

(** ** Start-up: the [__main__] block *)

(** [os.getenv(key, default)]: the variable's value when it is set, the
    default object, untouched, when it is not. *)
Definition os_getenv {D} (environ : gmap string string)
  (key : string) (default : D) : string + D :=
  match environ !! key with
  | Some v => inl v
  | None => inr default
  end.

(** [int(s)] on text, for ASCII input: blanks around the literal are
    dropped, one sign may lead, then come decimal digits, where single
    underscores may separate digits.  Blanks are tab, line feed, vertical
    tab, form feed, carriage return and space.  Digits of other scripts
    and the interpreter's cap on literals of thousands of digits are
    outside this model. *)
Definition is_space (c : ascii) : bool :=
  let n := Z.of_nat (nat_of_ascii c) in
  ((9 <=? n) && (n <=? 13)) || (n =? 32).

Definition digit_value (c : ascii) : option Z :=
  let n := Z.of_nat (nat_of_ascii c) in
  if (48 <=? n) && (n <=? 57) then Some (n - 48) else None.

Fixpoint lstrip (s : string) : string :=
  match s with
  | String c rest => if is_space c then lstrip rest else s
  | EmptyString => EmptyString
  end.

Fixpoint rstrip (s : string) : string :=
  match s with
  | String c rest =>
      match rstrip rest with
      | EmptyString => if is_space c then EmptyString else String c EmptyString
      | kept => String c kept
      end
  | EmptyString => EmptyString
  end.

(** The digit scan: [after_digit] tells whether the previous character
    was a digit, which is where an underscore or the end may come. *)
Fixpoint scan_digits (acc : Z) (after_digit : bool) (s : string) : option Z :=
  match s with
  | EmptyString => if after_digit then Some acc else None
  | String c rest =>
      match digit_value c with
      | Some d => scan_digits (10 * acc + d) true rest
      | None =>
          if Ascii.eqb c "_" && after_digit then scan_digits acc false rest
          else None
      end
  end.

Definition int_literal (s : string) : option Z :=
  match rstrip (lstrip s) with
  | String "-" digits => Z.opp <$> scan_digits 0 false digits
  | String "+" digits => scan_digits 0 false digits
  | digits => scan_digits 0 false digits
  end.

(** The exception [int] raises on text that is no integer literal. *)
Inductive int_error : Type :=
| ValueError (literal : string).

(** [int(x)] for the two kinds of object [os.getenv] can hand over: a
    string is parsed, an integer is returned as it is. *)
Definition int (x : string + Z) : Z + int_error :=
  match x with
  | inl s =>
      match int_literal s with
      | Some n => inl n
      | None => inr (ValueError s)
      end
  | inr n => inl n
  end.

(** The call that starts serving. *)
Inductive serving : Type :=
| uvicorn_run (application : FastAPI) (host : string) (port : Z).

Definition main (environ : gmap string string) : serving + int_error :=
  match int (os_getenv environ "PORT" 5000) with
  | inl port => inl (uvicorn_run app "0.0.0.0" port)
  | inr e => inr e
  end.

(** Decimal text of a digit list, most significant first, and its value. *)
Definition digit_char (d : nat) : ascii := ascii_of_nat (48 + d).

Fixpoint digits_text (ds : list nat) : string :=
  match ds with
  | [] => EmptyString
  | d :: rest => String (digit_char d) (digits_text rest)
  end.

Definition digits_value (ds : list nat) : Z :=
  fold_left (fun acc d => 10 * acc + Z.of_nat d) ds 0.

(** ** Observations on responses and on models *)

Definition as_float (v : py_value) : option float :=
  match v with
  | PyFloat x => Some x
  | _ => None
  end.

Fixpoint floats_of (items : list py_value) : option (list float) :=
  match items with
  | [] => Some []
  | v :: rest =>
      match as_float v, floats_of rest with
      | Some x, Some xs => Some (x :: xs)
      | _, _ => None
      end
  end.

(** The numbers under the [vector] key of a response body. *)
Definition response_vector (resp : py_value) : option (list float) :=
  match resp with
  | PyDict entries =>
      match dict_get entries "vector" with
      | Some (PyList items) => floats_of items
      | _ => None
      end
  | _ => None
  end.

(** The names handed to [SentenceTransformer] while the module loads. *)
Fixpoint loaded_models (steps : list boot_step) : list string :=
  match steps with
  | [] => []
  | SentenceTransformer name :: rest => name :: loaded_models rest
  | print _ :: rest => loaded_models rest
  end.

(** A model answers deterministically on [t] when the outcome of
    [encode t] does not depend on the world it is called in. *)
Definition deterministic_at {World}
  (encode : string -> World -> encode_outcome * World) (t : string) : Prop :=
  forall w1 w2, fst (encode t w1) = fst (encode t w2).

(** The model produces arrays of [dim] elements. *)
Definition has_dimension {World}
  (encode : string -> World -> encode_outcome * World) (dim : nat) : Prop :=
  forall t w a w', encode t w = (Returned a, w') -> length (nd_data a) = dim.

(** ** Sample models

    Small stand-ins for the pretrained network, over a world that counts
    the inference calls made so far. *)

Definition sample_embedding (t : string) : ndarray :=
  mk_ndarray
    (map (fun i => S754_finite false (Pos.of_succ_nat (String.length t + i)) 0)
         (seq 0 384)).

(** Answers from the text alone and fails on one text. *)
Definition steady_encode (t : string) (calls : nat) : encode_outcome * nat :=
  if String.eqb t "boom"
  then (Raised (mk_exception true "CUDA out of memory"), S calls)
  else (Returned (sample_embedding t), S calls).

(** Answers differently on every call. *)
Definition drifting_encode (t : string) (calls : nat) : encode_outcome * nat :=
  (Returned (mk_ndarray (repeat (S754_finite false (Pos.of_succ_nat calls) 0) 384)),
   S calls).

(** Is interrupted on every call by an exception outside [Exception]. *)
Definition interrupted_encode (t : string) (calls : nat) : encode_outcome * nat :=
  (Raised (mk_exception false "KeyboardInterrupt"), S calls).

Definition fresh_server : Server nat := mk_server 0%nat [].

(** ** Requests one after another

    [create_embedding] is a coroutine without an [await]: once entered it
    runs to its end, so the requests of a run are handled one at a time,
    each in the state the one before it left. *)
Fixpoint serve {World}
  (encode : string -> World -> encode_outcome * World)
  (reqs : list EmbeddingRequest) (st : Server World)
  : list (py_value + raised) * Server World :=
  match reqs with
  | [] => ([], st)
  | req :: rest =>
      let (out, st1) := create_embedding encode req st in
      let (outs, st2) := serve encode rest st1 in
      (out :: outs, st2)
  end.

(** The texts of a run that are not empty, in the order of arrival. *)
Definition nonempty_texts (reqs : list EmbeddingRequest) : list string :=
  List.filter (fun t => negb (py_not_str t)) (map text reqs).

(** The world after the model has been called on each text in turn. *)
Definition world_after {World}
  (encode : string -> World -> encode_outcome * World)
  (ts : list string) (w : World) : World :=
  fold_left (fun w t => snd (encode t w)) ts w.

(** ** Shapes of the text in [PORT] *)

Fixpoint all_blank (s : string) : bool :=
  match s with
  | EmptyString => true
  | String c rest => is_space c && all_blank rest
  end.

Fixpoint contains (p : ascii -> bool) (s : string) : bool :=
  match s with
  | EmptyString => false
  | String c rest => p c || contains p rest
  end.

(** A printable ASCII character that no integer literal contains: not a
    digit, an underscore or a sign. *)
Definition foreign_to_int (c : ascii) : bool :=
  let n := Z.of_nat (nat_of_ascii c) in
  (33 <=? n) && (n <=? 126)
  && match digit_value c with Some _ => false | None => true end
  && negb (Ascii.eqb c "_") && negb (Ascii.eqb c "+") && negb (Ascii.eqb c "-").

Inductive sign : Type := NoSign | Plus | Minus.

Definition sign_text (sg : sign) : string :=
  match sg with
  | NoSign => ""
  | Plus => "+"
  | Minus => "-"
  end.

Definition apply_sign (sg : sign) (n : Z) : Z :=
  match sg with
  | Minus => - n
  | _ => n
  end.

(** Groups of digits written with one underscore between neighbours, as
    in [8_080]. *)
Fixpoint underscored (groups : list (list nat)) : string :=
  match groups with
  | [] => EmptyString
  | [g] => digits_text g
  | g :: rest => digits_text g ++ String "_" (underscored rest)
  end.

(** The longest run of digits [int] converts under the interpreter's
    default setting. *)
Definition INT_MAX_STR_DIGITS : nat := 4300.

(** [s.isascii()]: every character of the text is below 128.  On such
    text the bytes of the environment and the characters [int] sees are
    the same. *)
Definition ascii_char (c : ascii) : bool :=
  Z.of_nat (nat_of_ascii c) <? 128.

Fixpoint isascii (s : string) : bool :=
  match s with
  | EmptyString => true
  | String c rest => ascii_char c && isascii rest
  end.

(** The number of digits in a text, underscores and signs not counted:
    what the interpreter holds against [INT_MAX_STR_DIGITS]. *)
Fixpoint digit_count (s : string) : nat :=
  match s with
  | EmptyString => 0%nat
  | String c rest =>
      match digit_value c with
      | Some _ => S (digit_count rest)
      | None => digit_count rest
      end
  end.

(** * Properties *)

(** ** Building blocks *)

Lemma py_not_str_true (s : string) : py_not_str s = true <-> s = "".
Proof. destruct s; simpl; split; congruence. Qed.

Lemma list_mul_singleton {A} (x : A) (n : Z) :
  list_mul [x] n = repeat x (Z.to_nat n).
Proof.
  unfold list_mul. induction (Z.to_nat n) as [|k IH]; simpl; [reflexivity|].
  now rewrite IH.
Qed.

Lemma floats_of_map_PyFloat (xs : list float) :
  floats_of (map PyFloat xs) = Some xs.
Proof.
  induction xs as [|x xs IH]; simpl; [reflexivity|]. now rewrite IH.
Qed.

Section HandlerFacts.
Context {World : Type}.
Variable encode : string -> World -> encode_outcome * World.

(** The first branch of [create_embedding]. *)
Lemma create_embedding_empty req st :
  text req = "" ->
  create_embedding encode req st =
    (inl (PyDict [("vector", PyList (list_mul [PyFloat zero_float] 384))]), st).
Proof.
  intros Hempty. unfold create_embedding. now rewrite Hempty.
Qed.

(** The second branch: one call of the model, whose outcome decides the
    result. *)
Lemma create_embedding_nonempty req st :
  text req <> "" ->
  create_embedding encode req st =
    match encode (text req) (world st) with
    | (Returned a, w') =>
        (inl (PyDict [("vector", tolist a)]), after_call st (text req) w')
    | (Raised e, w') =>
        if isinstance_Exception e
        then (inr (HTTPException 500 (str e)), after_call st (text req) w')
        else (inr (Propagated e), after_call st (text req) w')
    end.
Proof.
  intros Hne. unfold create_embedding.
  destruct (py_not_str (text req)) eqn:Hnot.
  - apply py_not_str_true in Hnot. contradiction.
  - unfold try_except_Exception, py_bind, model_encode, Return, raise, after_call.
    destruct (encode (text req) (world st)) as [[a|e] w']; reflexivity.
Qed.

End HandlerFacts.

(** ** The empty text *)

(** C2. For the empty text, [create_embedding] returns the body
    [{"vector": v}] where [v] is exactly 384 copies of [0.0]; this holds
    whatever the model is, and the server state, with its record of
    calls to [model.encode], is the one the handler started from: the
    model is not consulted. *)
Theorem C2_empty_text_gives_384_zeros :
  forall (World : Type) (encode : string -> World -> encode_outcome * World)
         (req : EmbeddingRequest) (st : Server World),
    text req = "" ->
    create_embedding encode req st =
      (inl (PyDict [("vector", PyList (repeat (PyFloat zero_float) 384))]), st)
    /\ response_vector
         (PyDict [("vector", PyList (repeat (PyFloat zero_float) 384))])
       = Some (repeat zero_float 384).
Proof.
  intros World encode req st Hempty. split.
  - rewrite (create_embedding_empty encode req st Hempty).
    now rewrite list_mul_singleton.
  - vm_compute. reflexivity.
Qed.

Lemma C2_witness :
  text (mk_EmbeddingRequest "") = ""
  /\ create_embedding drifting_encode (mk_EmbeddingRequest "") fresh_server =
       (inl (PyDict [("vector", PyList (repeat (PyFloat zero_float) 384))]),
        fresh_server).
Proof.
  split; [reflexivity|].
  apply (C2_empty_text_gives_384_zeros nat drifting_encode
           (mk_EmbeddingRequest "") fresh_server).
  reflexivity.
Defined.

(** ** Non-empty text: the model's answer is passed on *)

(** C3. For a non-empty text on which [model.encode] returns an array,
    [create_embedding] returns [{"vector": embedding.tolist()}]: the
    response holds the array's elements, all of them and in their order,
    and the model has been called exactly once, on that text. *)
Theorem C3_nonempty_text_returns_encoding :
  forall (World : Type) (encode : string -> World -> encode_outcome * World)
         (req : EmbeddingRequest) (st : Server World)
         (a : ndarray) (w' : World),
    text req <> "" ->
    encode (text req) (world st) = (Returned a, w') ->
    create_embedding encode req st =
      (inl (PyDict [("vector", PyList (map PyFloat (nd_data a)))]),
       mk_server w' (encode_calls st ++ [text req]))
    /\ response_vector (PyDict [("vector", PyList (map PyFloat (nd_data a)))])
       = Some (nd_data a).
Proof.
  intros World encode req st a w' Hne Henc. split.
  - rewrite (create_embedding_nonempty encode req st Hne), Henc. reflexivity.
  - unfold response_vector. simpl dict_get. cbv iota.
    apply floats_of_map_PyFloat.
Qed.

Lemma steady_hello :
  steady_encode "hello" 0%nat = (Returned (sample_embedding "hello"), 1%nat).
Proof. reflexivity. Qed.

Lemma C3_witness :
  create_embedding steady_encode (mk_EmbeddingRequest "hello") fresh_server =
    (inl (PyDict [("vector",
                   PyList (map PyFloat (nd_data (sample_embedding "hello"))))]),
     mk_server 1%nat ["hello"]).
Proof.
  apply (C3_nonempty_text_returns_encoding nat steady_encode
           (mk_EmbeddingRequest "hello") fresh_server
           (sample_embedding "hello") 1%nat).
  - simpl. discriminate.
  - reflexivity.
Defined.

(** ** Failure of the model *)

(** C4. When [model.encode] raises an exception [e] that
    [except Exception] catches, [create_embedding] raises
    [HTTPException(status_code=500, detail=str(e))]; the record of calls
    has grown by the one call that failed, so the inference was not
    tried again. *)
Theorem C4_inference_failure_is_http_500 :
  forall (World : Type) (encode : string -> World -> encode_outcome * World)
         (req : EmbeddingRequest) (st : Server World)
         (e : py_exception) (w' : World),
    text req <> "" ->
    encode (text req) (world st) = (Raised e, w') ->
    isinstance_Exception e = true ->
    create_embedding encode req st =
      (inr (HTTPException 500 (str e)),
       mk_server w' (encode_calls st ++ [text req])).
Proof.
  intros World encode req st e w' Hne Henc Hcatch.
  rewrite (create_embedding_nonempty encode req st Hne), Henc, Hcatch.
  reflexivity.
Qed.

Lemma C4_witness :
  create_embedding steady_encode (mk_EmbeddingRequest "boom") fresh_server =
    (inr (HTTPException 500 "CUDA out of memory"), mk_server 1%nat ["boom"]).
Proof.
  apply (C4_inference_failure_is_http_500 nat steady_encode
           (mk_EmbeddingRequest "boom") fresh_server
           (mk_exception true "CUDA out of memory") 1%nat).
  - simpl. discriminate.
  - reflexivity.
  - reflexivity.
Defined.

(** On the wire the failure is a response of status 500 whose body is
    [{"detail": str(e)}]. *)
Lemma inference_failure_on_the_wire
  (World : Type) (encode : string -> World -> encode_outcome * World)
  (s : string) (st : Server World) (e : py_exception) (w' : World) :
  s <> "" ->
  encode s (world st) = (Raised e, w') ->
  isinstance_Exception e = true ->
  post_embed encode (PyDict [("text", PyStr s)]) st =
    (inl (JSONResponse 500 (PyDict [("detail", PyStr (str e))])),
     after_call st s w').
Proof.
  intros Hne Henc Hcatch. unfold post_embed, post_route. simpl.
  rewrite (create_embedding_nonempty encode (mk_EmbeddingRequest s) st Hne).
  simpl. rewrite Henc, Hcatch. reflexivity.
Qed.

(** An exception that does not derive from [Exception] is not turned
    into an [HTTPException]: it leaves the handler as it is. *)
Lemma interrupt_is_not_caught :
  create_embedding interrupted_encode (mk_EmbeddingRequest "hello") fresh_server =
    (inr (Propagated (mk_exception false "KeyboardInterrupt")),
     mk_server 1%nat ["hello"]).
Proof. reflexivity. Qed.

(** C9. [create_embedding] on the empty text returns, whatever the model
    does; and whenever [create_embedding] raises, the text was not empty
    and [model.encode], called on it, raised. *)
Theorem C9_failure_only_from_encode :
  forall (World : Type) (encode : string -> World -> encode_outcome * World)
         (req : EmbeddingRequest) (st : Server World),
    (text req = "" ->
     exists resp, create_embedding encode req st = (inl resp, st))
    /\ (forall (r : raised) (st' : Server World),
          create_embedding encode req st = (inr r, st') ->
          text req <> ""
          /\ exists (e : py_exception) (w' : World),
               encode (text req) (world st) = (Raised e, w')
               /\ st' = after_call st (text req) w'
               /\ r = (if isinstance_Exception e
                       then HTTPException 500 (str e)
                       else Propagated e)).
Proof.
  intros World encode req st. split.
  - intros Hempty. eexists. apply create_embedding_empty, Hempty.
  - intros r st' Hfail.
    destruct (string_dec (text req) "") as [Hempty|Hne].
    + rewrite (create_embedding_empty encode req st Hempty) in Hfail.
      discriminate.
    + split; [exact Hne|].
      rewrite (create_embedding_nonempty encode req st Hne) in Hfail.
      destruct (encode (text req) (world st)) as [[a|e] w'].
      * discriminate.
      * exists e, w'. split; [reflexivity|].
        destruct (isinstance_Exception e); inversion Hfail; auto.
Qed.

Lemma C9_witness :
  (exists resp,
     create_embedding steady_encode (mk_EmbeddingRequest "") fresh_server
       = (inl resp, fresh_server))
  /\ (mk_EmbeddingRequest "boom").(text) <> ""
  /\ exists e w', steady_encode "boom" 0%nat = (Raised e, w').
Proof.
  destruct (C9_failure_only_from_encode nat steady_encode
              (mk_EmbeddingRequest "") fresh_server) as [Hok _].
  destruct (C9_failure_only_from_encode nat steady_encode
              (mk_EmbeddingRequest "boom") fresh_server) as [_ Hfail].
  split; [apply Hok; reflexivity|].
  destruct (Hfail (HTTPException 500 "CUDA out of memory")
                  (mk_server 1%nat ["boom"]) eq_refl)
    as (Hne & e & w' & Henc & _).
  split; [exact Hne|]. exists e, w'. exact Henc.
Defined.

(** ** Dimension of the returned vector *)

Lemma steady_encode_dimension : has_dimension steady_encode 384.
Proof.
  intros t w a w' Henc. unfold steady_encode in Henc.
  destruct (String.eqb t "boom"); inversion Henc; subst.
  unfold sample_embedding. cbn [nd_data].
  rewrite length_map. apply length_seq.
Qed.

(** C1. Let the loaded model produce arrays of [dim] elements, where
    [dim] is 384 as for the configured model.  Then every response that
    [create_embedding] returns is a body [{"vector": v}] whose [v] has
    exactly [dim] elements, for the empty text as for any other. *)
Theorem C1_vector_has_model_dimension :
  forall (World : Type) (encode : string -> World -> encode_outcome * World)
         (dim : nat),
    has_dimension encode dim ->
    dim = 384%nat ->
    forall (req : EmbeddingRequest) (st st' : Server World) (resp : py_value),
      create_embedding encode req st = (inl resp, st') ->
      exists v, resp = PyDict [("vector", PyList v)] /\ length v = dim.
Proof.
  intros World encode dim Hdim Hconf req st st' resp Hok.
  destruct (string_dec (text req) "") as [Hempty|Hne].
  - rewrite (create_embedding_empty encode req st Hempty) in Hok.
    inversion Hok; subst resp st'. eexists. split; [reflexivity|].
    rewrite list_mul_singleton, repeat_length, Hconf. reflexivity.
  - rewrite (create_embedding_nonempty encode req st Hne) in Hok.
    destruct (encode (text req) (world st)) as [[a|e] w'] eqn:Henc.
    + inversion Hok; subst resp st'. eexists. split; [reflexivity|].
      rewrite length_map. exact (Hdim _ _ _ _ Henc).
    + destruct (isinstance_Exception e); discriminate.
Qed.

Lemma C1_witness :
  exists v,
    PyDict [("vector", PyList (map PyFloat (nd_data (sample_embedding "hello"))))]
      = PyDict [("vector", PyList v)]
    /\ length v = 384%nat.
Proof.
  apply (C1_vector_has_model_dimension nat steady_encode 384
           steady_encode_dimension eq_refl
           (mk_EmbeddingRequest "hello") fresh_server
           (mk_server 1%nat ["hello"])).
  reflexivity.
Defined.

(** ** Determinism *)

Lemma steady_encode_deterministic (t : string) :
  deterministic_at steady_encode t.
Proof.
  intros w1 w2. unfold steady_encode. destruct (String.eqb t "boom"); reflexivity.
Qed.

(** What [create_embedding] hands back is a function of the model's
    outcome alone. *)
Lemma create_embedding_same_outcome
  (World : Type) (encode : string -> World -> encode_outcome * World)
  (req : EmbeddingRequest) (st1 st2 : Server World) :
  fst (encode (text req) (world st1)) = fst (encode (text req) (world st2)) ->
  fst (create_embedding encode req st1) = fst (create_embedding encode req st2).
Proof.
  intros Hsame.
  destruct (string_dec (text req) "") as [Hempty|Hne].
  - now rewrite !(create_embedding_empty encode req _ Hempty).
  - rewrite !(create_embedding_nonempty encode req _ Hne).
    destruct (encode (text req) (world st1)) as [o1 w1].
    destruct (encode (text req) (world st2)) as [o2 w2].
    simpl in Hsame. subst o2.
    destruct o1 as [a|e]; [reflexivity|].
    destruct (isinstance_Exception e); reflexivity.
Qed.

(** C5. If the model answers deterministically on a non-empty text, two
    calls of [create_embedding] with that text give the same result: the
    second call, made in the state the first one left, and more generally
    a call made in any other state. *)
Theorem C5_same_text_same_vector :
  forall (World : Type) (encode : string -> World -> encode_outcome * World)
         (req : EmbeddingRequest),
    text req <> "" ->
    deterministic_at encode (text req) ->
    forall st : Server World,
      fst (create_embedding encode req (snd (create_embedding encode req st)))
        = fst (create_embedding encode req st)
      /\ forall st2 : Server World,
           fst (create_embedding encode req st2)
             = fst (create_embedding encode req st).
Proof.
  intros World encode req _ Hdet st. split; [|intros st2];
    apply create_embedding_same_outcome, Hdet.
Qed.

Lemma C5_witness :
  fst (create_embedding steady_encode (mk_EmbeddingRequest "hello")
         (snd (create_embedding steady_encode (mk_EmbeddingRequest "hello")
                 fresh_server)))
    = fst (create_embedding steady_encode (mk_EmbeddingRequest "hello")
             fresh_server).
Proof.
  apply (C5_same_text_same_vector nat steady_encode
           (mk_EmbeddingRequest "hello")).
  - simpl. discriminate.
  - apply steady_encode_deterministic.
Defined.

(** The hypothesis on the model is needed: over a model whose answer
    changes from call to call, two calls with the same text differ. *)
Lemma drifting_model_gives_different_vectors :
  fst (create_embedding drifting_encode (mk_EmbeddingRequest "hello")
         (snd (create_embedding drifting_encode (mk_EmbeddingRequest "hello")
                 fresh_server)))
    <> fst (create_embedding drifting_encode (mk_EmbeddingRequest "hello")
              fresh_server).
Proof. vm_compute. discriminate. Qed.

(** ** Health *)

(** C6. [health] returns, in every state and leaving it as it is, the
    body [{"status": "ok", "model": "paraphrase-multilingual-MiniLM-L12-v2"}];
    the name under [model] is the one the module loads its model by. *)
Theorem C6_health_is_fixed :
  forall (World : Type) (st : Server World),
    @health World st =
      (inl (PyDict [("status", PyStr "ok");
                    ("model", PyStr "paraphrase-multilingual-MiniLM-L12-v2")]),
       st)
    /\ loaded_models module_body = ["paraphrase-multilingual-MiniLM-L12-v2"].
Proof.
  intros World st. split; reflexivity.
Qed.

(** ** Request validation *)

Lemma validate_rejects_iff (body : py_value) :
  validate_EmbeddingRequest body = None <-> ~ has_text_string body.
Proof.
  unfold has_text_string. split.
  - intros Hnone (entries & s & -> & Hget). simpl in Hnone.
    rewrite Hget in Hnone. discriminate.
  - intros Hno. destruct body as [| | | | |items|entries]; try reflexivity.
    simpl. destruct (dict_get entries "text") as [v|] eqn:Hget; [|reflexivity].
    destruct v; try reflexivity.
    exfalso. apply Hno. eauto.
Qed.

(** C7. A request body that is not an object with a string under
    [text] is answered by the validation step: the response is the
    framework's client error, of a status between 400 and 499 and so not
    500; the server state is untouched; and the answer is the same for
    every endpoint function the route could wrap, [create_embedding]
    included, which therefore was not run. *)
Theorem C7_malformed_body_rejected_before_handler :
  forall (World : Type) (encode : string -> World -> encode_outcome * World)
         (body : py_value) (st : Server World),
    ~ has_text_string body ->
    post_embed encode body st = (inl RequestValidationError, st)
    /\ 400 <= status_of RequestValidationError < 500
    /\ forall endpoint : EmbeddingRequest -> Py World raised py_value,
         post_route validate_EmbeddingRequest endpoint body st
           = (inl RequestValidationError, st).
Proof.
  intros World encode body st Hbad.
  apply validate_rejects_iff in Hbad.
  unfold post_embed, post_route. rewrite Hbad.
  split; [reflexivity|]. split; [simpl; lia|]. intros endpoint. reflexivity.
Qed.

Lemma empty_object_has_no_text : ~ has_text_string (PyDict []).
Proof.
  intros (entries & s & Hbody & Hget). inversion Hbody; subst entries.
  discriminate.
Qed.

Lemma C7_witness :
  post_embed steady_encode (PyDict []) fresh_server
    = (inl RequestValidationError, fresh_server).
Proof.
  apply (C7_malformed_body_rejected_before_handler nat steady_encode
           (PyDict []) fresh_server empty_object_has_no_text).
Defined.

(** ** The listening port *)

Lemma digit_value_digit_char (d : nat) :
  (d < 10)%nat -> digit_value (digit_char d) = Some (Z.of_nat d).
Proof.
  intros Hd. do 10 (destruct d as [|d]; [reflexivity|]). lia.
Qed.

Lemma digit_char_not_space (d : nat) :
  (d < 10)%nat -> is_space (digit_char d) = false.
Proof.
  intros Hd. do 10 (destruct d as [|d]; [reflexivity|]). lia.
Qed.

Lemma lstrip_digits (ds : list nat) :
  Forall (fun d => (d < 10)%nat) ds -> lstrip (digits_text ds) = digits_text ds.
Proof.
  intros Hds. destruct Hds as [|d ds Hd _]; cbn [digits_text lstrip];
    [reflexivity|].
  now rewrite digit_char_not_space.
Qed.

Lemma rstrip_digits (ds : list nat) :
  Forall (fun d => (d < 10)%nat) ds -> rstrip (digits_text ds) = digits_text ds.
Proof.
  induction 1 as [|d ds Hd _ IH]; cbn [digits_text rstrip]; [reflexivity|].
  rewrite IH. destruct (digits_text ds); [|reflexivity].
  now rewrite digit_char_not_space.
Qed.

Lemma scan_digits_text (ds : list nat) :
  Forall (fun d => (d < 10)%nat) ds ->
  forall (acc : Z) (after_digit : bool),
    ds <> [] \/ after_digit = true ->
    scan_digits acc after_digit (digits_text ds)
      = Some (fold_left (fun a d => 10 * a + Z.of_nat d) ds acc).
Proof.
  induction 1 as [|d ds Hd _ IH]; intros acc after_digit Hstart;
    cbn [digits_text scan_digits fold_left].
  - destruct Hstart as [Hne| ->]; [contradiction|reflexivity].
  - rewrite (digit_value_digit_char d Hd). apply IH. now right.
Qed.

(** [int] reads a plain decimal numeral as the number it writes. *)
Lemma int_literal_digits (ds : list nat) :
  ds <> [] ->
  Forall (fun d => (d < 10)%nat) ds ->
  int_literal (digits_text ds) = Some (digits_value ds).
Proof.
  intros Hne Hds. unfold int_literal, digits_value.
  rewrite (lstrip_digits ds Hds), (rstrip_digits ds Hds).
  destruct Hds as [|d ds Hd Hrest]; [contradiction|].
  assert (Hscan :
    scan_digits 0 false (digits_text (d :: ds))
      = Some (fold_left (fun a d => 10 * a + Z.of_nat d) (d :: ds) 0)).
  { apply scan_digits_text; [now constructor | now left]. }
  revert Hscan. cbn [digits_text].
  do 10 (destruct d as [|d]; [intros Hscan; exact Hscan|]). lia.
Qed.

(** [main] as a function of what [PORT] holds. *)
Lemma main_unfold (environ : gmap string string) :
  main environ =
    match environ !! "PORT" with
    | None => inl (uvicorn_run app "0.0.0.0" 5000)
    | Some s =>
        match int_literal s with
        | Some n => inl (uvicorn_run app "0.0.0.0" n)
        | None => inr (ValueError s)
        end
    end.
Proof.
  unfold main, os_getenv, int.
  destruct (environ !! "PORT") as [s|]; [|reflexivity].
  destruct (int_literal s); reflexivity.
Qed.

(** C8. The port handed to [uvicorn.run] is decided by [PORT] alone.
    With [PORT] unset it is 5000; with [PORT] set to text of at most
    [INT_MAX_STR_DIGITS] digits that [int] reads as [n] it is [n], and
    in particular a decimal numeral of at most that many digits selects
    the number it writes; two environments that agree on [PORT] start
    the service in the same way. *)
Theorem C8_port_from_environment :
  forall environ : gmap string string,
    (environ !! "PORT" = None ->
     main environ = inl (uvicorn_run app "0.0.0.0" 5000))
    /\ (forall (s : string) (n : Z),
          environ !! "PORT" = Some s ->
          (digit_count s <= INT_MAX_STR_DIGITS)%nat ->
          int_literal s = Some n ->
          main environ = inl (uvicorn_run app "0.0.0.0" n))
    /\ (forall ds : list nat,
          ds <> [] ->
          Forall (fun d => (d < 10)%nat) ds ->
          (length ds <= INT_MAX_STR_DIGITS)%nat ->
          environ !! "PORT" = Some (digits_text ds) ->
          main environ = inl (uvicorn_run app "0.0.0.0" (digits_value ds)))
    /\ (forall environ' : gmap string string,
          environ' !! "PORT" = environ !! "PORT" ->
          main environ' = main environ).
Proof.
  intros environ. repeat split.
  - intros Hunset. now rewrite main_unfold, Hunset.
  - intros s n Hset _ Hint. now rewrite main_unfold, Hset, Hint.
  - intros ds Hne Hds _ Hset.
    now rewrite main_unfold, Hset, (int_literal_digits ds Hne Hds).
  - intros environ' Hsame. now rewrite !main_unfold, Hsame.
Qed.

Lemma C8_witness :
  main ∅ = inl (uvicorn_run app "0.0.0.0" 5000)
  /\ main {["PORT" := "8080"]} = inl (uvicorn_run app "0.0.0.0" 8080)
  /\ main {["PORT" := " +80_80 "]} = inl (uvicorn_run app "0.0.0.0" 8080)
  /\ main {["PORT" := "8080"; "HOST" := "127.0.0.1"]}
     = main {["PORT" := "8080"]}.
Proof.
  destruct (C8_port_from_environment ∅) as (Hunset & _).
  destruct (C8_port_from_environment {["PORT" := "8080"]})
    as (_ & _ & Hdigits & Hsame).
  destruct (C8_port_from_environment {["PORT" := " +80_80 "]})
    as (_ & Hset & _).
  split; [apply Hunset; vm_compute; reflexivity|].
  split; [apply (Hdigits [8; 0; 8; 0]%nat);
          [discriminate | repeat constructor; lia
           | unfold INT_MAX_STR_DIGITS; simpl; lia | vm_compute; reflexivity]|].
  split; [apply (Hset " +80_80 " 8080);
          [vm_compute; reflexivity
           | apply Nat.leb_le; vm_compute; reflexivity
           | vm_compute; reflexivity]|].
  apply Hsame. vm_compute. reflexivity.
Defined.

(** C10. With [PORT] set to ASCII text that [int] does not read as an
    integer, [main] ends in the [ValueError] raised by [int]: no server
    is started, neither on port 5000 nor on any other. *)
Theorem C10_bad_port_raises :
  forall (environ : gmap string string) (s : string),
    environ !! "PORT" = Some s ->
    isascii s = true ->
    int_literal s = None ->
    main environ = inr (ValueError s)
    /\ main environ <> inl (uvicorn_run app "0.0.0.0" 5000)
    /\ forall started : serving, main environ <> inl started.
Proof.
  intros environ s Hset _ Hbad.
  rewrite main_unfold, Hset, Hbad. repeat split; intros; discriminate.
Qed.

Lemma C10_witness :
  main {["PORT" := "http"]} = inr (ValueError "http").
Proof.
  apply (C10_bad_port_raises {["PORT" := "http"]} "http").
  - vm_compute. reflexivity.
  - reflexivity.
  - vm_compute. reflexivity.
Defined.

(** Texts that [int] refuses: the empty string, a numeral followed by a
    letter, a numeral broken by a blank, and a decimal fraction. *)
Lemma int_refuses_examples :
  main {["PORT" := ""]} = inr (ValueError "")
  /\ main {["PORT" := "80a"]} = inr (ValueError "80a")
  /\ main {["PORT" := "8 0"]} = inr (ValueError "8 0")
  /\ main {["PORT" := "5000.0"]} = inr (ValueError "5000.0").
Proof. vm_compute. repeat split; reflexivity. Qed.

(** * Further properties of the handlers *)

(** One request, whatever its outcome, leaves the record of calls longer
    by its text when that is not empty, and as it was otherwise; the
    world moves by one call of the model in the first case only. *)
Lemma create_embedding_effect
  (World : Type) (encode : string -> World -> encode_outcome * World)
  (req : EmbeddingRequest) (st : Server World) :
  snd (create_embedding encode req st) =
    if py_not_str (text req) then st
    else after_call st (text req) (snd (encode (text req) (world st))).
Proof.
  destruct (py_not_str (text req)) eqn:Hnot.
  - apply py_not_str_true in Hnot.
    now rewrite (create_embedding_empty encode req st Hnot).
  - assert (Hne : text req <> "").
    { intros Hempty. apply py_not_str_true in Hempty. congruence. }
    rewrite (create_embedding_nonempty encode req st Hne).
    destruct (encode (text req) (world st)) as [[a|e] w']; [reflexivity|].
    destruct (isinstance_Exception e); reflexivity.
Qed.

(** X1. Over a run of requests, the model is called once for every
    request with a non-empty text, in the order of arrival, and for no
    other: the record of calls grows by exactly those texts, the world is
    the one those calls leave, and every request gets its outcome. *)
Theorem X1_run_calls_model_once_per_nonempty_text :
  forall (World : Type) (encode : string -> World -> encode_outcome * World)
         (reqs : list EmbeddingRequest) (st : Server World),
    encode_calls (snd (serve encode reqs st))
      = encode_calls st ++ nonempty_texts reqs
    /\ world (snd (serve encode reqs st))
       = world_after encode (nonempty_texts reqs) (world st)
    /\ length (fst (serve encode reqs st)) = length reqs.
Proof.
  intros World encode reqs. unfold nonempty_texts.
  induction reqs as [|req rest IH]; intros st.
  - cbn. now rewrite app_nil_r.
  - cbn [serve map List.filter].
    pose proof (create_embedding_effect World encode req st) as Heff.
    destruct (create_embedding encode req st) as [out st1]. cbn [snd] in Heff.
    specialize (IH st1) as (IHcalls & IHworld & IHlen).
    destruct (serve encode rest st1) as [outs st2]. cbn [fst snd] in *.
    rewrite IHcalls, IHworld. subst st1.
    destruct (py_not_str (text req)); cbn [negb].
    + split; [reflexivity|]. split; [reflexivity|].
      cbn [length]. now rewrite IHlen.
    + unfold after_call, world_after. cbn [encode_calls world fold_left length].
      rewrite <- app_assoc.
      split; [reflexivity|]. split; [reflexivity|].
      cbn [length]. now rewrite IHlen.
Qed.

(** X2. When [model.encode] raises an exception that does not derive
    from [Exception], [create_embedding] lets it through as it is: no
    [HTTPException] is made of it, and the one call is on record. *)
Theorem X2_other_exceptions_pass_through :
  forall (World : Type) (encode : string -> World -> encode_outcome * World)
         (req : EmbeddingRequest) (st : Server World)
         (e : py_exception) (w' : World),
    text req <> "" ->
    encode (text req) (world st) = (Raised e, w') ->
    isinstance_Exception e = false ->
    create_embedding encode req st =
      (inr (Propagated e), mk_server w' (encode_calls st ++ [text req])).
Proof.
  intros World encode req st e w' Hne Henc Hout.
  rewrite (create_embedding_nonempty encode req st Hne), Henc, Hout.
  reflexivity.
Qed.

Lemma X2_witness :
  create_embedding interrupted_encode (mk_EmbeddingRequest "hello") fresh_server =
    (inr (Propagated (mk_exception false "KeyboardInterrupt")),
     mk_server 1%nat ["hello"]).
Proof.
  apply (X2_other_exceptions_pass_through nat interrupted_encode
           (mk_EmbeddingRequest "hello") fresh_server
           (mk_exception false "KeyboardInterrupt") 1%nat).
  - simpl. discriminate.
  - reflexivity.
  - reflexivity.
Defined.

(** X3. Whatever the model, a response that [create_embedding] returns
    is a dict with the single key [vector] over a list of floats, and it
    arises in one of two ways: the text was empty, the floats are 384
    zeros and the state is untouched; or the text was not empty, the
    model returned an array on it and the floats are that array's. *)
Theorem X3_success_is_zeros_or_model_array :
  forall (World : Type) (encode : string -> World -> encode_outcome * World)
         (req : EmbeddingRequest) (st st' : Server World) (resp : py_value),
    create_embedding encode req st = (inl resp, st') ->
    exists xs : list float,
      resp = PyDict [("vector", PyList (map PyFloat xs))]
      /\ response_vector resp = Some xs
      /\ ((text req = "" /\ xs = repeat zero_float 384 /\ st' = st)
          \/ (text req <> ""
              /\ exists (a : ndarray) (w' : World),
                   encode (text req) (world st) = (Returned a, w')
                   /\ xs = nd_data a
                   /\ st' = after_call st (text req) w')).
Proof.
  intros World encode req st st' resp Hok.
  destruct (string_dec (text req) "") as [Hempty|Hne].
  - rewrite (create_embedding_empty encode req st Hempty) in Hok.
    inversion Hok; subst resp st'. exists (repeat zero_float 384).
    rewrite list_mul_singleton.
    assert (Hmap : repeat (PyFloat zero_float) (Z.to_nat 384)
                   = map PyFloat (repeat zero_float 384)).
    { change (Z.to_nat 384) with 384%nat. symmetry. apply map_repeat. }
    rewrite Hmap. split; [reflexivity|]. split.
    + unfold response_vector. cbn [dict_get String.eqb Ascii.eqb Bool.eqb].
      apply floats_of_map_PyFloat.
    + left. auto.
  - rewrite (create_embedding_nonempty encode req st Hne) in Hok.
    destruct (encode (text req) (world st)) as [[a|e] w'] eqn:Henc.
    + inversion Hok; subst resp st'. exists (nd_data a).
      split; [reflexivity|]. split.
      * unfold response_vector, tolist.
        cbn [dict_get String.eqb Ascii.eqb Bool.eqb].
        apply floats_of_map_PyFloat.
      * right. split; [exact Hne|]. exists a, w'. auto.
    + destruct (isinstance_Exception e); discriminate.
Qed.

Lemma X3_witness :
  exists xs : list float,
    PyDict [("vector", PyList (map PyFloat (nd_data (sample_embedding "hello"))))]
      = PyDict [("vector", PyList (map PyFloat xs))]
    /\ response_vector
         (PyDict [("vector",
                   PyList (map PyFloat (nd_data (sample_embedding "hello"))))])
       = Some xs.
Proof.
  destruct (X3_success_is_zeros_or_model_array nat steady_encode
              (mk_EmbeddingRequest "hello") fresh_server
              (mk_server 1%nat ["hello"]) _ eq_refl)
    as (xs & Hshape & Hvec & _).
  exists xs. split; [exact Hshape | exact Hvec].
Defined.

Lemma response_vector_of_floats (xs : list float) :
  response_vector (PyDict [("vector", PyList (map PyFloat xs))]) = Some xs.
Proof.
  unfold response_vector. cbn [dict_get String.eqb Ascii.eqb Bool.eqb].
  apply floats_of_map_PyFloat.
Qed.

Lemma zero_vector_as_floats :
  PyList (list_mul [PyFloat zero_float] 384)
    = PyList (map PyFloat (repeat zero_float 384)).
Proof.
  rewrite list_mul_singleton. change (Z.to_nat 384) with 384%nat.
  now rewrite map_repeat.
Qed.

(** X4. The length of the zero vector is the literal 384 and is not
    taken from the model.  Over a model of dimension [dim], the vector
    returned for the empty text and a vector returned for a non-empty
    text have the same length exactly when [dim] is 384. *)
Theorem X4_zero_vector_length_is_fixed :
  forall (World : Type) (encode : string -> World -> encode_outcome * World)
         (dim : nat) (req0 req : EmbeddingRequest)
         (st0 st0' st st' : Server World) (resp0 resp : py_value)
         (xs0 xs : list float),
    has_dimension encode dim ->
    text req0 = "" ->
    text req <> "" ->
    create_embedding encode req0 st0 = (inl resp0, st0') ->
    create_embedding encode req st = (inl resp, st') ->
    response_vector resp0 = Some xs0 ->
    response_vector resp = Some xs ->
    length xs0 = 384%nat
    /\ length xs = dim
    /\ (length xs0 = length xs <-> dim = 384%nat).
Proof.
  intros World encode dim req0 req st0 st0' st st' resp0 resp xs0 xs
         Hdim Hempty Hne Hok0 Hok Hvec0 Hvec.
  assert (Hlen0 : length xs0 = 384%nat).
  { rewrite (create_embedding_empty encode req0 st0 Hempty) in Hok0.
    inversion Hok0; subst resp0 st0'.
    rewrite zero_vector_as_floats, response_vector_of_floats in Hvec0.
    assert (Hxs0 : xs0 = repeat zero_float 384) by congruence.
    rewrite Hxs0. apply repeat_length. }
  assert (Hlen : length xs = dim).
  { rewrite (create_embedding_nonempty encode req st Hne) in Hok.
    destruct (encode (text req) (world st)) as [[a|e] w'] eqn:Henc.
    - inversion Hok; subst resp st'. unfold tolist in Hvec.
      rewrite response_vector_of_floats in Hvec.
      assert (Hxs : xs = nd_data a) by congruence.
      rewrite Hxs. exact (Hdim _ _ _ _ Henc).
    - destruct (isinstance_Exception e); discriminate. }
  split; [exact Hlen0|]. split; [exact Hlen|].
  rewrite Hlen0, Hlen. split; congruence.
Qed.

Lemma X4_witness :
  length (repeat zero_float 384) = 384%nat
  /\ length (nd_data (sample_embedding "hello")) = 384%nat.
Proof.
  destruct (X4_zero_vector_length_is_fixed nat steady_encode 384
              (mk_EmbeddingRequest "") (mk_EmbeddingRequest "hello")
              fresh_server fresh_server fresh_server (mk_server 1%nat ["hello"])
              (PyDict [("vector", PyList (map PyFloat (repeat zero_float 384)))])
              (PyDict [("vector",
                        PyList (map PyFloat (nd_data (sample_embedding "hello"))))])
              (repeat zero_float 384) (nd_data (sample_embedding "hello"))
              steady_encode_dimension)
    as (H0 & H1 & _).
  - reflexivity.
  - simpl. discriminate.
  - vm_compute. reflexivity.
  - reflexivity.
  - apply response_vector_of_floats.
  - apply response_vector_of_floats.
  - split; [exact H0 | exact H1].
Defined.

(** * Further properties of start-up *)

(** ** Blanks *)

Lemma lstrip_blank (s : string) : all_blank s = true -> lstrip s = "".
Proof.
  induction s as [|c s IH]; cbn [all_blank lstrip]; [reflexivity|].
  intros [Hc Hs]%andb_prop. rewrite Hc. auto.
Qed.

Lemma rstrip_blank (s : string) : all_blank s = true -> rstrip s = "".
Proof.
  induction s as [|c s IH]; cbn [all_blank rstrip]; [reflexivity|].
  intros [Hc Hs]%andb_prop. rewrite (IH Hs). cbv beta iota.
  now rewrite Hc.
Qed.

Lemma lstrip_app_blank (pre s : string) :
  all_blank pre = true -> lstrip (pre ++ s) = lstrip s.
Proof.
  induction pre as [|c pre IH]; [reflexivity|].
  change (String c pre ++ s)%string with (String c (pre ++ s)).
  cbn [all_blank lstrip].
  intros [Hc Hpre]%andb_prop. rewrite Hc. auto.
Qed.

Lemma rstrip_app_blank (s post : string) :
  all_blank post = true -> rstrip (s ++ post) = rstrip s.
Proof.
  intros Hpost. induction s as [|c s IH].
  - now apply rstrip_blank.
  - change (String c s ++ post)%string with (String c (s ++ post)).
    cbn [rstrip]. now rewrite IH.
Qed.

Lemma int_literal_blank (s : string) :
  all_blank s = true -> int_literal s = None.
Proof.
  intros Hblank. unfold int_literal. now rewrite (lstrip_blank s Hblank).
Qed.

(** X5. With [PORT] set but holding nothing, or nothing but blanks,
    start-up ends in [ValueError]: the default 5000 stands in for a
    variable that is unset, not for one that is empty. *)
Theorem X5_blank_port_raises :
  forall (environ : gmap string string) (s : string),
    environ !! "PORT" = Some s ->
    all_blank s = true ->
    main environ = inr (ValueError s).
Proof.
  intros environ s Hset Hblank.
  now rewrite main_unfold, Hset, (int_literal_blank s Hblank).
Qed.

Lemma X5_witness :
  main {["PORT" := ""]} = inr (ValueError "").
Proof.
  apply (X5_blank_port_raises {["PORT" := ""]} "").
  - vm_compute. reflexivity.
  - reflexivity.
Defined.

(** ** Characters no literal contains *)

Lemma foreign_to_int_facts (c : ascii) :
  foreign_to_int c = true ->
  is_space c = false /\ digit_value c = None
  /\ Ascii.eqb c "_" = false /\ Ascii.eqb c "+" = false
  /\ Ascii.eqb c "-" = false.
Proof.
  unfold foreign_to_int, is_space.
  set (n := Z.of_nat (nat_of_ascii c)).
  intros H.
  apply andb_prop in H as [H Hminus]. apply andb_prop in H as [H Hplus].
  apply andb_prop in H as [H Hunder]. apply andb_prop in H as [H Hdigit].
  apply andb_prop in H as [Hlo Hhi].
  apply negb_true_iff in Hminus, Hplus, Hunder.
  repeat split; try assumption.
  - apply orb_false_iff. split.
    + apply andb_false_iff. right. lia.
    + lia.
  - destruct (digit_value c); [discriminate|reflexivity].
Qed.

Lemma contains_lstrip (p : ascii -> bool) (s : string) :
  (forall c, p c = true -> is_space c = false) ->
  contains p (lstrip s) = contains p s.
Proof.
  intros Hp. induction s as [|c s IH]; cbn [lstrip contains]; [reflexivity|].
  destruct (is_space c) eqn:Hc; [|reflexivity].
  rewrite IH. destruct (p c) eqn:Hpc; [|reflexivity].
  rewrite (Hp c Hpc) in Hc. discriminate.
Qed.

Lemma contains_rstrip (p : ascii -> bool) (s : string) :
  (forall c, p c = true -> is_space c = false) ->
  contains p (rstrip s) = contains p s.
Proof.
  intros Hp. induction s as [|c s IH]; cbn [rstrip contains]; [reflexivity|].
  rewrite <- IH. destruct (rstrip s) as [|k kept]; [|reflexivity].
  cbn [contains]. destruct (is_space c) eqn:Hc; [|reflexivity].
  cbn [contains]. destruct (p c) eqn:Hpc; [|reflexivity].
  rewrite (Hp c Hpc) in Hc. discriminate.
Qed.

Lemma scan_digits_foreign (s : string) :
  contains foreign_to_int s = true ->
  forall (acc : Z) (after_digit : bool), scan_digits acc after_digit s = None.
Proof.
  induction s as [|c s IH]; cbn [contains scan_digits]; [discriminate|].
  intros Hin acc after_digit.
  destruct (foreign_to_int c) eqn:Hc.
  - destruct (foreign_to_int_facts c Hc) as (_ & Hdigit & Hunder & _).
    now rewrite Hdigit, Hunder.
  - cbn [orb] in Hin. destruct (digit_value c); [now apply IH|].
    destruct (Ascii.eqb c "_" && after_digit); [now apply IH|reflexivity].
Qed.

(** [int_literal] on a text that is already stripped, with the tests on
    the first character written as comparisons. *)
Lemma int_literal_by_first (s : string) :
  int_literal s =
    match rstrip (lstrip s) with
    | EmptyString => None
    | String c digits =>
        if Ascii.eqb c "-" then Z.opp <$> scan_digits 0 false digits
        else if Ascii.eqb c "+" then scan_digits 0 false digits
        else scan_digits 0 false (String c digits)
    end.
Proof.
  unfold int_literal. destruct (rstrip (lstrip s)) as [|c digits]; [reflexivity|].
  destruct c as [[] [] [] [] [] [] [] []]; reflexivity.
Qed.

Lemma int_literal_foreign (s : string) :
  contains foreign_to_int s = true -> int_literal s = None.
Proof.
  intros Hin.
  assert (Hspace : forall c, foreign_to_int c = true -> is_space c = false).
  { intros c Hc. apply (foreign_to_int_facts c Hc). }
  rewrite <- (contains_lstrip _ s Hspace) in Hin.
  rewrite <- (contains_rstrip _ _ Hspace) in Hin.
  rewrite int_literal_by_first.
  destruct (rstrip (lstrip s)) as [|c digits]; [reflexivity|].
  cbn [contains] in Hin. destruct (foreign_to_int c) eqn:Hc.
  - destruct (foreign_to_int_facts c Hc) as (_ & _ & _ & Hplus & Hminus).
    rewrite Hminus, Hplus. apply scan_digits_foreign. cbn [contains].
    now rewrite Hc.
  - cbn [orb] in Hin.
    destruct (Ascii.eqb c "-");
      [now rewrite (scan_digits_foreign digits Hin)|].
    destruct (Ascii.eqb c "+"); [now apply scan_digits_foreign|].
    apply scan_digits_foreign. cbn [contains]. now rewrite Hc.
Qed.

(** X6. With [PORT] holding, anywhere in its text, a printable
    character that is not a digit, an underscore or a sign (a letter, a
    dot, a colon, a slash), start-up ends in a [ValueError] that
    carries the text of [PORT]; no server is started. *)
Theorem X6_port_with_foreign_character_raises :
  forall (environ : gmap string string) (s : string),
    environ !! "PORT" = Some s ->
    contains foreign_to_int s = true ->
    main environ = inr (ValueError s).
Proof.
  intros environ s Hset Hin.
  now rewrite main_unfold, Hset, (int_literal_foreign s Hin).
Qed.

Lemma X6_witness :
  main {["PORT" := "8080/tcp"]} = inr (ValueError "8080/tcp").
Proof.
  apply (X6_port_with_foreign_character_raises {["PORT" := "8080/tcp"]} "8080/tcp").
  - vm_compute. reflexivity.
  - vm_compute. reflexivity.
Defined.

(** ** Numerals with a sign and with blanks around them *)

Lemma digits_text_nonempty (ds : list nat) :
  ds <> [] -> digits_text ds <> "".
Proof. destruct ds; [contradiction|discriminate]. Qed.

Lemma rstrip_cons_kept (c : ascii) (s : string) :
  rstrip s <> "" -> rstrip (String c s) = String c (rstrip s).
Proof.
  intros Hkept. cbn [rstrip]. destruct (rstrip s); [contradiction|reflexivity].
Qed.

Lemma digit_char_not_sign (d : nat) :
  (d < 10)%nat ->
  Ascii.eqb (digit_char d) "-" = false /\ Ascii.eqb (digit_char d) "+" = false.
Proof.
  intros Hd. do 10 (destruct d as [|d]; [split; reflexivity|]). lia.
Qed.

(** A sign followed by digits starts with a character that is no blank. *)
Lemma signed_digits_head (sg : sign) (ds : list nat) :
  ds <> [] ->
  Forall (fun d => (d < 10)%nat) ds ->
  exists c rest,
    (sign_text sg ++ digits_text ds)%string = String c rest
    /\ is_space c = false.
Proof.
  intros Hne Hds. destruct sg.
  - destruct Hds as [|d ds Hd _]; [contradiction|].
    exists (digit_char d), (digits_text ds). split; [reflexivity|].
    now apply digit_char_not_space.
  - exists "+"%char, (digits_text ds). split; reflexivity.
  - exists "-"%char, (digits_text ds). split; reflexivity.
Qed.

Lemma rstrip_signed_digits (sg : sign) (ds : list nat) :
  ds <> [] ->
  Forall (fun d => (d < 10)%nat) ds ->
  rstrip (sign_text sg ++ digits_text ds)
    = (sign_text sg ++ digits_text ds)%string.
Proof.
  intros Hne Hds.
  assert (Hkept : rstrip (digits_text ds) <> "").
  { rewrite (rstrip_digits ds Hds). now apply digits_text_nonempty. }
  destruct sg.
  - exact (rstrip_digits ds Hds).
  - change (sign_text Plus ++ digits_text ds)%string
      with (String "+" (digits_text ds)).
    now rewrite (rstrip_cons_kept _ _ Hkept), (rstrip_digits ds Hds).
  - change (sign_text Minus ++ digits_text ds)%string
      with (String "-" (digits_text ds)).
    now rewrite (rstrip_cons_kept _ _ Hkept), (rstrip_digits ds Hds).
Qed.

(** Blanks before and after a signed numeral are dropped, and the
    numeral is read with its sign. *)
Lemma int_literal_signed_digits (pre post : string) (sg : sign) (ds : list nat) :
  all_blank pre = true ->
  all_blank post = true ->
  ds <> [] ->
  Forall (fun d => (d < 10)%nat) ds ->
  int_literal (pre ++ (sign_text sg ++ digits_text ds) ++ post)
    = Some (apply_sign sg (digits_value ds)).
Proof.
  intros Hpre Hpost Hne Hds.
  assert (Hscan : forall acc,
    scan_digits acc false (digits_text ds)
      = Some (fold_left (fun a d => 10 * a + Z.of_nat d) ds acc)).
  { intros acc. apply scan_digits_text; [exact Hds | now left]. }
  rewrite int_literal_by_first, (lstrip_app_blank pre _ Hpre).
  destruct (signed_digits_head sg ds Hne Hds) as (c & rest & Hbody & Hc).
  assert (Hl : lstrip ((sign_text sg ++ digits_text ds) ++ post)
               = ((sign_text sg ++ digits_text ds) ++ post)%string).
  { rewrite Hbody.
    change (String c rest ++ post)%string with (String c (rest ++ post)).
    cbn [lstrip]. now rewrite Hc. }
  rewrite Hl, (rstrip_app_blank _ post Hpost), (rstrip_signed_digits sg ds Hne Hds).
  clear Hl Hbody Hc c rest. unfold digits_value. destruct sg.
  - change (sign_text NoSign ++ digits_text ds)%string with (digits_text ds).
    destruct Hds as [|d ds Hd Hrest]; [contradiction|].
    specialize (Hscan 0). cbn [digits_text] in Hscan |- *.
    destruct (digit_char_not_sign d Hd) as [Hminus Hplus].
    rewrite Hminus, Hplus. exact Hscan.
  - change (sign_text Plus ++ digits_text ds)%string
      with (String "+" (digits_text ds)).
    change (Ascii.eqb "+" "-") with false. change (Ascii.eqb "+" "+") with true.
    cbv iota. exact (Hscan 0).
  - change (sign_text Minus ++ digits_text ds)%string
      with (String "-" (digits_text ds)).
    change (Ascii.eqb "-" "-") with true. cbv iota.
    rewrite (Hscan 0). reflexivity.
Qed.

(** X7. A decimal numeral in [PORT] may carry a sign and may stand
    between blanks (as when the value ends in a line feed): the port
    handed to [uvicorn.run] is the number it writes, with its sign.  The
    numeral is within the number of digits [int] accepts. *)
Theorem X7_port_with_sign_and_blanks :
  forall (environ : gmap string string) (pre post : string)
         (sg : sign) (ds : list nat),
    all_blank pre = true ->
    all_blank post = true ->
    ds <> [] ->
    Forall (fun d => (d < 10)%nat) ds ->
    (length ds <= INT_MAX_STR_DIGITS)%nat ->
    environ !! "PORT" = Some (pre ++ (sign_text sg ++ digits_text ds) ++ post)%string ->
    main environ
      = inl (uvicorn_run app "0.0.0.0" (apply_sign sg (digits_value ds))).
Proof.
  intros environ pre post sg ds Hpre Hpost Hne Hds _ Hset.
  now rewrite main_unfold, Hset,
    (int_literal_signed_digits pre post sg ds Hpre Hpost Hne Hds).
Qed.

Lemma X7_witness :
  main {["PORT" := String "009" (String " " (String "-" (String "8" (String "0"
                     (String "010" EmptyString)))))]}
    = inl (uvicorn_run app "0.0.0.0" (-80)).
Proof.
  apply (X7_port_with_sign_and_blanks _
           (String "009" (String " " EmptyString))
           (String "010" EmptyString) Minus [8; 0]%nat).
  - reflexivity.
  - reflexivity.
  - discriminate.
  - repeat constructor; lia.
  - unfold INT_MAX_STR_DIGITS. simpl. lia.
  - vm_compute. reflexivity.
Defined.

(** ** Every integer can be asked for *)

Lemma digits_value_snoc (ds : list nat) (d : nat) :
  digits_value (ds ++ [d]) = 10 * digits_value ds + Z.of_nat d.
Proof. unfold digits_value. now rewrite List.fold_left_app. Qed.

(** Every natural number has a decimal numeral. *)
Lemma decimal_digits_exist (n : Z) :
  0 <= n ->
  exists ds : list nat,
    ds <> [] /\ Forall (fun d => (d < 10)%nat) ds /\ digits_value ds = n.
Proof.
  revert n. apply (Zlt_0_ind (fun n =>
    exists ds : list nat,
      ds <> [] /\ Forall (fun d => (d < 10)%nat) ds /\ digits_value ds = n)).
  intros n IH Hpos.
  destruct (Z_lt_le_dec n 10) as [Hsmall|Hbig].
  - exists [Z.to_nat n]. split; [discriminate|]. split.
    + constructor; [lia|constructor].
    + unfold digits_value. cbn [fold_left]. lia.
  - assert (Hq : 0 <= n / 10 < n).
    { split; [apply Z.div_pos; lia | apply Z.div_lt; lia]. }
    destruct (IH (n / 10) Hq) as (ds & Hne & Hds & Hval).
    pose proof (Z.mod_pos_bound n 10 ltac:(lia)) as Hr.
    exists (ds ++ [Z.to_nat (n mod 10)]). split; [|split].
    + destruct ds; discriminate.
    + apply Forall_app. split; [exact Hds|].
      constructor; [lia|constructor].
    + rewrite digits_value_snoc, Hval.
      pose proof (Z.div_mod n 10 ltac:(lia)). lia.
Qed.

(** X8. The port is not checked against any range before it is handed
    to [uvicorn.run]: for every integer whose numeral [int] accepts,
    negative ones and ones above 65535 included, there is a value of
    [PORT] with which start-up calls [uvicorn.run] on that very port. *)
Theorem X8_port_is_not_range_checked :
  forall n : Z,
    Z.abs n < 10 ^ Z.of_nat INT_MAX_STR_DIGITS ->
    exists s : string,
      main {["PORT" := s]} = inl (uvicorn_run app "0.0.0.0" n).
Proof.
  intros n _.
  destruct (decimal_digits_exist (Z.abs n) (Z.abs_nonneg n))
    as (ds & Hne & Hds & Hval).
  set (sg := if Z.ltb n 0 then Minus else NoSign).
  exists ("" ++ (sign_text sg ++ digits_text ds) ++ "")%string.
  rewrite main_unfold, lookup_singleton_eq.
  rewrite (int_literal_signed_digits "" "" sg ds eq_refl eq_refl Hne Hds).
  rewrite Hval. do 3 f_equal. unfold sg.
  destruct (Z.ltb_spec n 0); cbn [apply_sign]; lia.
Qed.

Lemma X8_witness :
  exists s : string,
    main {["PORT" := s]} = inl (uvicorn_run app "0.0.0.0" (-70000)).
Proof.
  apply (X8_port_is_not_range_checked (-70000)).
  vm_compute. reflexivity.
Defined.

(** ** Underscores between digits *)

Lemma no_blank_lstrip (s : string) :
  contains is_space s = false -> lstrip s = s.
Proof.
  destruct s as [|c s]; [reflexivity|]. cbn [contains lstrip].
  intros [Hc _]%orb_false_iff. now rewrite Hc.
Qed.

Lemma no_blank_rstrip (s : string) :
  contains is_space s = false -> rstrip s = s.
Proof.
  induction s as [|c s IH]; [reflexivity|]. cbn [contains rstrip].
  intros [Hc Hs]%orb_false_iff. rewrite (IH Hs).
  destruct s; [now rewrite Hc | reflexivity].
Qed.

Lemma contains_app (p : ascii -> bool) (s t : string) :
  contains p (s ++ t) = contains p s || contains p t.
Proof.
  induction s as [|c s IH]; [reflexivity|].
  change (String c s ++ t)%string with (String c (s ++ t)).
  cbn [contains]. now rewrite IH, orb_assoc.
Qed.

Lemma digits_text_no_blank (ds : list nat) :
  Forall (fun d => (d < 10)%nat) ds -> contains is_space (digits_text ds) = false.
Proof.
  induction 1 as [|d ds Hd _ IH]; [reflexivity|]. cbn [digits_text contains].
  now rewrite (digit_char_not_space d Hd), IH.
Qed.

Lemma underscored_no_blank (groups : list (list nat)) :
  Forall (fun g => g <> [] /\ Forall (fun d => (d < 10)%nat) g) groups ->
  contains is_space (underscored groups) = false.
Proof.
  induction 1 as [|g rest [_ Hg] Hrest IH]; [reflexivity|].
  cbn [underscored]. destruct rest as [|g' rest'].
  - now apply digits_text_no_blank.
  - rewrite contains_app, (digits_text_no_blank g Hg). cbn [orb contains].
    exact IH.
Qed.

(** The scan reads a run of digits and goes on behind it. *)
Lemma scan_digits_app (ds : list nat) (rest : string) :
  Forall (fun d => (d < 10)%nat) ds ->
  ds <> [] ->
  forall (acc : Z) (after_digit : bool),
    scan_digits acc after_digit (digits_text ds ++ rest)
      = scan_digits (fold_left (fun a d => 10 * a + Z.of_nat d) ds acc) true rest.
Proof.
  induction 1 as [|d ds Hd Hds IH]; [contradiction|]. intros _ acc after_digit.
  change (digits_text (d :: ds) ++ rest)%string
    with (String (digit_char d) (digits_text ds ++ rest)).
  cbn [scan_digits fold_left]. rewrite (digit_value_digit_char d Hd).
  destruct ds as [|d' ds']; [reflexivity|].
  apply IH. discriminate.
Qed.

Lemma scan_digits_underscored (groups : list (list nat)) :
  Forall (fun g => g <> [] /\ Forall (fun d => (d < 10)%nat) g) groups ->
  groups <> [] ->
  forall (acc : Z) (after_digit : bool),
    scan_digits acc after_digit (underscored groups)
      = Some (fold_left (fun a d => 10 * a + Z.of_nat d) (concat groups) acc).
Proof.
  induction 1 as [|g rest [Hne Hg] Hrest IH]; [contradiction|].
  intros _ acc after_digit. cbn [underscored concat].
  rewrite List.fold_left_app. destruct rest as [|g' rest'].
  - cbn [concat fold_left]. apply scan_digits_text; [exact Hg | now left].
  - rewrite (scan_digits_app g _ Hg Hne). cbn [scan_digits].
    change (digit_value "_") with (@None Z).
    change (Ascii.eqb "_" "_" && true) with true. cbv iota.
    apply IH. discriminate.
Qed.

Lemma underscored_head (groups : list (list nat)) :
  Forall (fun g => g <> [] /\ Forall (fun d => (d < 10)%nat) g) groups ->
  groups <> [] ->
  exists d rest, (d < 10)%nat /\ underscored groups = String (digit_char d) rest.
Proof.
  intros Hgroups Hne. destruct Hgroups as [|g rest [Hg Hds] _]; [contradiction|].
  destruct Hds as [|d ds Hd _]; [contradiction|]. exists d.
  cbn [underscored]. destruct rest; eexists; split; try exact Hd; reflexivity.
Qed.

(** X9. Single underscores between the digits in [PORT] are skipped:
    the port is the number written by the digits alone, so [8_080]
    selects 8080. *)
Theorem X9_underscores_between_digits_are_skipped :
  forall (environ : gmap string string) (groups : list (list nat)),
    groups <> [] ->
    Forall (fun g => g <> [] /\ Forall (fun d => (d < 10)%nat) g) groups ->
    (length (concat groups) <= INT_MAX_STR_DIGITS)%nat ->
    environ !! "PORT" = Some (underscored groups) ->
    main environ
      = inl (uvicorn_run app "0.0.0.0" (digits_value (concat groups))).
Proof.
  intros environ groups Hne Hgroups _ Hset.
  rewrite main_unfold, Hset, int_literal_by_first.
  pose proof (underscored_no_blank groups Hgroups) as Hnb.
  rewrite (no_blank_lstrip _ Hnb), (no_blank_rstrip _ Hnb).
  pose proof (scan_digits_underscored groups Hgroups Hne 0 false) as Hscan.
  destruct (underscored_head groups Hgroups Hne) as (d & rest & Hd & Hhead).
  rewrite Hhead in Hscan |- *.
  destruct (digit_char_not_sign d Hd) as [Hminus Hplus].
  rewrite Hminus, Hplus, Hscan. reflexivity.
Qed.

Lemma X9_witness :
  main {["PORT" := "8_080"]} = inl (uvicorn_run app "0.0.0.0" 8080).
Proof.
  apply (X9_underscores_between_digits_are_skipped {["PORT" := "8_080"]}
           [[8]; [0; 8; 0]]%nat).
  - discriminate.
  - repeat (constructor; [split; [discriminate | repeat constructor; lia]|]).
    constructor.
  - unfold INT_MAX_STR_DIGITS. simpl. lia.
  - vm_compute. reflexivity.
Defined.

(** ** The texts [int_literal] reads are ASCII *)

Section Rejected.
(** Characters that are no blank, digit, underscore or sign. *)
Variable outside : ascii -> bool.
Hypothesis outside_facts :
  forall c, outside c = true ->
    is_space c = false /\ digit_value c = None
    /\ Ascii.eqb c "_" = false /\ Ascii.eqb c "+" = false
    /\ Ascii.eqb c "-" = false.

Lemma scan_digits_rejects (s : string) :
  contains outside s = true ->
  forall (acc : Z) (after_digit : bool), scan_digits acc after_digit s = None.
Proof.
  induction s as [|c s IH]; cbn [contains scan_digits]; [discriminate|].
  intros Hin acc after_digit.
  destruct (outside c) eqn:Hc.
  - destruct (outside_facts c Hc) as (_ & Hdigit & Hunder & _).
    now rewrite Hdigit, Hunder.
  - cbn [orb] in Hin. destruct (digit_value c); [now apply IH|].
    destruct (Ascii.eqb c "_" && after_digit); [now apply IH|reflexivity].
Qed.

Lemma int_literal_rejects (s : string) :
  contains outside s = true -> int_literal s = None.
Proof.
  intros Hin.
  assert (Hspace : forall c, outside c = true -> is_space c = false).
  { intros c Hc. apply (outside_facts c Hc). }
  rewrite <- (contains_lstrip _ s Hspace) in Hin.
  rewrite <- (contains_rstrip _ _ Hspace) in Hin.
  rewrite int_literal_by_first.
  destruct (rstrip (lstrip s)) as [|c digits]; [reflexivity|].
  cbn [contains] in Hin. destruct (outside c) eqn:Hc.
  - destruct (outside_facts c Hc) as (_ & _ & _ & Hplus & Hminus).
    rewrite Hminus, Hplus. apply scan_digits_rejects. cbn [contains].
    now rewrite Hc.
  - cbn [orb] in Hin.
    destruct (Ascii.eqb c "-");
      [now rewrite (scan_digits_rejects digits Hin)|].
    destruct (Ascii.eqb c "+"); [now apply scan_digits_rejects|].
    apply scan_digits_rejects. cbn [contains]. now rewrite Hc.
Qed.

End Rejected.

Lemma beyond_ascii_facts (c : ascii) :
  negb (ascii_char c) = true ->
  is_space c = false /\ digit_value c = None
  /\ Ascii.eqb c "_" = false /\ Ascii.eqb c "+" = false
  /\ Ascii.eqb c "-" = false.
Proof.
  unfold ascii_char, is_space, digit_value.
  intros Hc%negb_true_iff%Z.ltb_ge.
  assert (Hne : forall k : ascii,
            Z.of_nat (nat_of_ascii k) < 128 -> Ascii.eqb c k = false).
  { intros k Hk. destruct (Ascii.eqb_spec c k) as [->|]; [lia|reflexivity]. }
  repeat split.
  - apply orb_false_iff. split; [apply andb_false_iff; right|]; lia.
  - destruct ((48 <=? Z.of_nat (nat_of_ascii c))
              && (Z.of_nat (nat_of_ascii c) <=? 57)) eqn:Hd; [|reflexivity].
    apply andb_prop in Hd as [_ Hhi%Z.leb_le]. lia.
  - apply Hne. vm_compute. reflexivity.
  - apply Hne. vm_compute. reflexivity.
  - apply Hne. vm_compute. reflexivity.
Qed.

Lemma contains_beyond_ascii (s : string) :
  isascii s = false -> contains (fun c => negb (ascii_char c)) s = true.
Proof.
  induction s as [|c s IH]; cbn [isascii contains]; [discriminate|].
  destruct (ascii_char c); cbn [andb negb orb]; [exact IH|reflexivity].
Qed.

(** Text with a character beyond ASCII is not read by [int_literal]:
    what it reads consists of ASCII blanks, signs, digits and
    underscores. *)
Lemma int_literal_reads_ascii (s : string) (n : Z) :
  int_literal s = Some n -> isascii s = true.
Proof.
  intros Hread. destruct (isascii s) eqn:Hascii; [reflexivity|].
  rewrite (int_literal_rejects _ beyond_ascii_facts s
             (contains_beyond_ascii s Hascii)) in Hread.
  discriminate.
Qed.
